(** * Pharmaceutical supply chain simulation: the session state engine

    A shallow embedding of [pharma_SCM.py].  The script is a Streamlit page:
    every interaction re-runs it top to bottom against the persistent
    [st.session_state], and a button call returns [True] in the pass in which
    it was clicked.  The embedding keeps that shape:

    - the session state is a record [State], threaded explicitly;
    - each button handler is a function on [State];
    - one pass of the script is [script_pass], which calls the handlers in
      the order in which the script reaches them;
    - the random draws of a tick ([random.random], [random.choice],
      [random.uniform]) are an explicit input [Draws].

    Numbers.  Python [int] is unbounded and is modelled by [Z].  The script
    multiplies integers by the decimal literals 0.8, 0.9, 0.95, 0.25, 1.3 and
    divides integers into floats; the embedding reads a float as the exact
    rational it denotes ([Q]), so [0.8] is [8 # 10], and [int(...)] is
    truncation toward zero ([py_int]).  Module [Binary64] computes the same
    products in IEEE binary64 and the last section compares the two readings
    on every amount from 0 to 5000. *)

From Stdlib Require Import ZArith QArith Qround Qabs List String Ascii Bool Lia.
From Stdlib Require Import DecimalString SpecFloat.
Import ListNotations.

Open Scope Z_scope.

(** ** Python numerics *)

Module Py.

(** [int(x)] on a float: truncation toward zero. *)
Definition py_int (x : Q) : Z := Z.quot (Qnum x) (Z.pos (Qden x)).

(** [n * c] for an [int] n and a float literal c. *)
Definition mulf (n : Z) (c : Q) : Q := (inject_Z n * c)%Q.

(** [a / b] on two ints (true division). *)
Definition truediv (a b : Z) : Q := (inject_Z a / inject_Z b)%Q.

(** [str(n)] for an [int]. *)
Definition str (n : Z) : string := NilZero.string_of_int (Z.to_int n).

(** [needle in hay] on strings. *)
Definition contains (needle hay : string) : bool :=
  match String.index 0 needle hay with
  | Some _ => true
  | None => false
  end.

End Py.

Import Py.

(** ** Session state (lines 19-36) *)

Record Inventory : Type := mkInventory {
  raw_materials : Z;
  api : Z;
  finished_products : Z
}.

Record Kpis : Type := mkKpis {
  inventory_turnover : list Q;
  otif : list Q;
  costs : list Z;
  revenue : list Z
}.

(** One entry of [st.session_state.history]. *)
Record Snapshot : Type := mkSnapshot {
  snap_week : Z;
  snap_money : Z;
  snap_inventory : Inventory;
  snap_demand : Z
}.

Record State : Type := mkState {
  initialized : bool;
  week : Z;
  money : Z;
  inventory : Inventory;
  demand : Z;
  events : list string;
  kpis : Kpis;
  history : list Snapshot
}.

(** The block under [if 'initialized' not in st.session_state]. *)
Definition initial_state : State :=
  {| initialized := true;
     week := 1;
     money := 1000000;
     inventory := {| raw_materials := 5000; api := 3000; finished_products := 2000 |};
     demand := 500;
     events := [];
     kpis := {| inventory_turnover := []; otif := []; costs := []; revenue := [] |};
     history := [] |}.

(** The session store: [None] is a session in which the key ['initialized']
    is absent.  The test is on the presence of the key, not on its value. *)
Definition initialize (session : option State) : State :=
  match session with
  | None => initial_state
  | Some s => s
  end.

(** ** Random events (lines 55-74) *)

Record Event : Type := mkEvent {
  name : string;
  effect : string
}.

Definition possible_events : list Event :=
  [ {| name := "📜 Regulatory Change"; effect := "Production slowed by 20%" |};
    {| name := "📈 Demand Spike"; effect := "Demand increased by 30%" |};
    {| name := "📉 Raw Material Shortage"; effect := "Raw material costs increased by 25%" |};
    {| name := "🔬 Quality Issue"; effect := "10% of production batch rejected" |};
    {| name := "❄️ Cold Chain Failure"; effect := "5% of finished products lost" |} ].

(** The random draws of one tick: [random.random()], the index chosen by
    [random.choice(possible_events)] and [random.uniform(0.9, 1.1)]. *)
Record Draws : Type := mkDraws {
  roll : Q;
  choice : nat;
  variation : Q
}.

Definition valid_draws (r : Draws) : Prop :=
  (0 <= roll r)%Q /\ (roll r < 1)%Q /\
  (choice r < List.length possible_events)%nat /\
  (9 # 10 <= variation r)%Q /\ (variation r <= 11 # 10)%Q.

(** Field updates of the session state. *)
Definition set_finished (i : Inventory) (v : Z) : Inventory :=
  {| raw_materials := raw_materials i; api := api i; finished_products := v |}.

Definition set_api (i : Inventory) (v : Z) : Inventory :=
  {| raw_materials := raw_materials i; api := v;
     finished_products := finished_products i |}.

Definition set_raw (i : Inventory) (v : Z) : Inventory :=
  {| raw_materials := v; api := api i;
     finished_products := finished_products i |}.

Definition with_initialized (s : State) (v : bool) : State :=
  {| initialized := v; week := week s; money := money s;
     inventory := inventory s; demand := demand s; events := events s;
     kpis := kpis s; history := history s |}.

Definition with_week (s : State) (v : Z) : State :=
  {| initialized := initialized s; week := v; money := money s;
     inventory := inventory s; demand := demand s; events := events s;
     kpis := kpis s; history := history s |}.

Definition with_money (s : State) (v : Z) : State :=
  {| initialized := initialized s; week := week s; money := v;
     inventory := inventory s; demand := demand s; events := events s;
     kpis := kpis s; history := history s |}.

Definition with_inventory (s : State) (v : Inventory) : State :=
  {| initialized := initialized s; week := week s; money := money s;
     inventory := v; demand := demand s; events := events s;
     kpis := kpis s; history := history s |}.

Definition with_demand (s : State) (v : Z) : State :=
  {| initialized := initialized s; week := week s; money := money s;
     inventory := inventory s; demand := v; events := events s;
     kpis := kpis s; history := history s |}.

Definition with_events (s : State) (v : list string) : State :=
  {| initialized := initialized s; week := week s; money := money s;
     inventory := inventory s; demand := demand s; events := v;
     kpis := kpis s; history := history s |}.

Definition with_kpis (s : State) (v : Kpis) : State :=
  {| initialized := initialized s; week := week s; money := money s;
     inventory := inventory s; demand := demand s; events := events s;
     kpis := v; history := history s |}.

Definition with_history (s : State) (v : list Snapshot) : State :=
  {| initialized := initialized s; week := week s; money := money s;
     inventory := inventory s; demand := demand s; events := events s;
     kpis := kpis s; history := v |}.

(** ** The "Next Week" handler (lines 42-98) *)

(** "Record previous state": the snapshot holds a copy of the inventory. *)
Definition record_previous_state (s : State) : State :=
  with_history s
    (history s ++ [ {| snap_week := week s; snap_money := money s;
                       snap_inventory := inventory s;
                       snap_demand := demand s |} ]).

(** "Progress time". *)
Definition progress_time (s : State) : State := with_week s (week s + 1).

(** [f"Week {week}: {event['name']} - {event['effect']}"] *)
Definition event_line (w : Z) (e : Event) : string :=
  ("Week " ++ str w ++ ": " ++ name e ++ " - " ++ effect e)%string.

(** The [if]/[elif] chain "Apply event effects" (lines 67-74). *)
Definition apply_event_effects (e : Event) (s : State) : State :=
  if contains "Demand Spike" (name e) then
    with_demand s (py_int (mulf (demand s) (13 # 10)))
  else if contains "Raw Material Shortage" (name e) then
    with_money s (money s - py_int (mulf (raw_materials (inventory s)) (25 # 100)))
  else if contains "Quality Issue" (name e) then
    with_inventory s
      (set_finished (inventory s)
         (py_int (mulf (finished_products (inventory s)) (9 # 10))))
  else if contains "Cold Chain Failure" (name e) then
    with_inventory s
      (set_finished (inventory s)
         (py_int (mulf (finished_products (inventory s)) (95 # 100))))
  else s.

(** [random.choice(possible_events)] at the drawn index. *)
Definition chosen_event (r : Draws) : Event :=
  nth (choice r) possible_events {| name := ""; effect := "" |}.

(** "Random events": a 30% chance of one event, logged and applied. *)
Definition random_events (r : Draws) (s : State) : State :=
  if Qlt_le_dec (roll r) (3 # 10) then
    let event := chosen_event r in
    apply_event_effects event
      (with_events s (events s ++ [event_line (week s) event]))
  else s.

(** "Natural demand variation". *)
Definition natural_demand_variation (r : Draws) (s : State) : State :=
  with_demand s (py_int (mulf (demand s) (variation r))).

(** Names bound by "Calculate KPIs" (lines 80-87). *)
Definition total_inventory_value (i : Inventory) : Z :=
  raw_materials i * 10 + api i * 50 + finished_products i * 200.

Definition sold_products (s : State) : Z :=
  Z.min (finished_products (inventory s)) (demand s).

Definition otif_of (s : State) : Q :=
  if 0 <? demand s then truediv (sold_products s) (demand s) else 1%Q.

(** [sold_products / (finished_products + 0.1)] *)
Definition turnover_of (s : State) : Q :=
  (inject_Z (sold_products s)
   / (inject_Z (finished_products (inventory s)) + (1 # 10)))%Q.

(** "Update KPIs" and "Update financials" (lines 89-98).  Every right-hand
    side below reads the state [s] the block starts from: the decrement of
    [finished_products] is the last statement. *)
Definition update_kpis_and_financials (s : State) : State :=
  let sold := sold_products s in
  let revenue_now := sold * 300 in
  let k := kpis s in
  with_inventory
    (with_money
       (with_kpis s
          {| inventory_turnover := inventory_turnover k ++ [turnover_of s];
             otif := otif k ++ [otif_of s];
             costs := costs k ++ [total_inventory_value (inventory s)];
             revenue := revenue k ++ [revenue_now] |})
       (money s + revenue_now))
    (set_finished (inventory s) (finished_products (inventory s) - sold)).

Definition next_week (r : Draws) (s : State) : State :=
  update_kpis_and_financials
    (natural_demand_variation r
       (random_events r
          (progress_time
             (record_previous_state s)))).

(** ** The "Reset Simulation" handler (lines 101-103)

    The handler stores [False] under the key ['initialized'] and asks for a
    rerun.  The rerun finds the key present, so the initialisation block is
    not entered. *)
Definition reset_simulation (s : State) : State := with_initialized s false.

(** ** The "Execute Decisions" handler (lines 126-150) *)

(** The values returned by the three sliders. *)
Record Decisions : Type := mkDecisions {
  raw_to_api : Z;
  api_to_finished : Z;
  raw_materials_to_buy : Z
}.

(** [st.slider(label, min_value, max_value, value)].  Streamlit puts the two
    bounds in order and then widens them so that they contain [value]; the
    widget returns a value between the adjusted bounds.  A default above the
    maximum therefore raises the maximum. *)
Definition slider_bounds (min_value max_value value : Z) : Z * Z :=
  let lo := Z.min min_value max_value in
  let hi := Z.max lo max_value in
  (Z.min value lo, Z.max value hi).

Definition slider_returns (min_value max_value value v : Z) : Prop :=
  fst (slider_bounds min_value max_value value) <= v
  <= snd (slider_bounds min_value max_value value).

(** The three sliders of lines 126, 127 and 131, read in state [s]: the
    conversion sliders run from 0 to the stock with the fixed defaults 100
    and 50. *)
Definition sliders_return (s : State) (d : Decisions) : Prop :=
  slider_returns 0 (raw_materials (inventory s)) 100 (raw_to_api d) /\
  slider_returns 0 (api (inventory s)) 50 (api_to_finished d) /\
  slider_returns 0 5000 100 (raw_materials_to_buy d).

(** A batch whose amounts are non-negative and no larger than the stock of
    the good they are taken from.  This is a condition on a batch: neither
    the handler nor the sliders enforce it. *)
Definition within_stock (s : State) (d : Decisions) : Prop :=
  0 <= raw_to_api d <= raw_materials (inventory s) /\
  0 <= api_to_finished d <= api (inventory s) /\
  0 <= raw_materials_to_buy d.

(** What the handler shows: [st.success] or [st.error]. *)
Inductive Notice : Type :=
| success (msg : string)
| error (msg : string).

(** The statements of the [if] branch, in order (lines 138-146). *)
Definition apply_decisions (d : Decisions) (s : State) : State :=
  let i0 := inventory s in
  let i1 := set_raw i0 (raw_materials i0 - raw_to_api d) in
  let i2 := set_api i1 (api i1 + py_int (mulf (raw_to_api d) (8 # 10))) in
  let i3 := set_api i2 (api i2 - api_to_finished d) in
  let i4 := set_finished i3
              (finished_products i3 + py_int (mulf (api_to_finished d) (9 # 10))) in
  let i5 := set_raw i4 (raw_materials i4 + raw_materials_to_buy d) in
  with_money (with_inventory s i5) (money s - raw_materials_to_buy d * 10).

Definition execute_decisions (d : Decisions) (s : State) : State * Notice :=
  let raw_material_cost := raw_materials_to_buy d * 10 in
  if raw_material_cost <=? money s then
    (apply_decisions d s, success "Decisions executed successfully! 🎉")
  else
    (s, error "Insufficient funds to purchase raw materials! 💸").

(** ** One pass of the script

    The handlers in the order in which the script reaches them.  A click on
    Reset ends the pass ([st.experimental_rerun]); the pass that follows has
    no button clicked and changes nothing. *)
Record Clicks : Type := mkClicks {
  next_week_clicked : bool;
  reset_clicked : bool;
  execute_clicked : bool
}.

Definition script_pass (c : Clicks) (r : Draws) (d : Decisions)
    (session : option State) : State * option Notice :=
  let s0 := initialize session in
  let s1 := if next_week_clicked c then next_week r s0 else s0 in
  if reset_clicked c then (reset_simulation s1, None)
  else if execute_clicked c then
    let (s2, n) := execute_decisions d s1 in (s2, Some n)
  else (s1, None).

(** ** Reachable session states

    The states of a session: from the initial state, any sequence of Next
    Week, Execute Decisions and Reset clicks.  Every batch is admitted: the
    handler runs on whatever values it is given. *)
Inductive reachable : State -> Prop :=
| reach_initial : reachable initial_state
| reach_next_week r s :
    reachable s -> valid_draws r -> reachable (next_week r s)
| reach_execute d s :
    reachable s -> reachable (fst (execute_decisions d s))
| reach_reset s :
    reachable s -> reachable (reset_simulation s).

(** The states of the sessions in which every batch executed is within
    stock. *)
Inductive reachable_within_stock : State -> Prop :=
| stock_initial : reachable_within_stock initial_state
| stock_next_week r s :
    reachable_within_stock s -> reachable_within_stock (next_week r s)
| stock_execute d s :
    reachable_within_stock s -> within_stock s d ->
    reachable_within_stock (fst (execute_decisions d s))
| stock_reset s :
    reachable_within_stock s -> reachable_within_stock (reset_simulation s).

(** ** IEEE binary64 arithmetic, for comparison

    Python floats are binary64.  The operations below are the correctly
    rounded ones of the standard library's specification of floats. *)

Module Binary64.

Definition prec : Z := 53.
Definition emax : Z := 1024.

(** [float(n)] for an [int]. *)
Definition of_int (n : Z) : spec_float := binary_normalize prec emax n 0 false.

Definition mul : spec_float -> spec_float -> spec_float := SFmul prec emax.
Definition add : spec_float -> spec_float -> spec_float := SFadd prec emax.
Definition div : spec_float -> spec_float -> spec_float := SFdiv prec emax.

(** The float denoted by a decimal literal [num/den]: the double nearest to
    the quotient. *)
Definition literal (num : Z) (den : positive) : spec_float :=
  div (of_int num) (of_int (Z.pos den)).

(** [int(x)]: truncation toward zero; infinities and NaN raise. *)
Definition to_int (x : spec_float) : option Z :=
  match x with
  | S754_zero _ => Some 0
  | S754_finite sign m e =>
      let magnitude :=
        match e with
        | Z0 => Z.pos m
        | Zpos p => Z.pos m * 2 ^ Z.pos p
        | Zneg p => Z.pos m / 2 ^ Z.pos p
        end in
      Some (if sign then - magnitude else magnitude)
  | S754_infinity _ | S754_nan => None
  end.

(** [int(n * c)] computed in binary64. *)
Definition int_mul (n : Z) (c : spec_float) : option Z :=
  to_int (mul (of_int n) c).

(** Whether the binary64 product and the rational product truncate to the
    same integer for every amount from 0 to [n]. *)
Fixpoint agree_upto (a : Z) (b : positive) (n : nat) : bool :=
  match int_mul (Z.of_nat n) (literal a b) with
  | Some v => v =? py_int (mulf (Z.of_nat n) (a # b))
  | None => false
  end
  && match n with
     | O => true
     | S k => agree_upto a b k
     end.

End Binary64.

(** ** Derived notions used by the statements *)

(** The state in which a tick reaches "Calculate KPIs": history recorded,
    week advanced, event applied, demand varied; nothing sold yet. *)
Definition before_settlement (r : Draws) (s : State) : State :=
  natural_demand_variation r
    (random_events r (progress_time (record_previous_state s))).

Definition inventory_nonneg (i : Inventory) : Prop :=
  0 <= raw_materials i /\ 0 <= api i /\ 0 <= finished_products i.

(** ** The page below the handlers (lines 152-243)

    Column 2 shows the tail of the event log and the KPI metrics, column 3
    prepares the series of the charts.  The values are modelled as they are
    computed, before they are formatted and drawn. *)

(** What a block of the page ends in: its data, the text written in its
    place, or a [ZeroDivisionError]. *)
Inductive Panel (A : Type) : Type :=
| panel_data (a : A)
| panel_message (msg : string)
| panel_error.

Arguments panel_data {A} a.
Arguments panel_message {A} msg.
Arguments panel_error {A}.

(** [st.session_state.events[-5:]] *)
Definition recent_events (s : State) : list string :=
  skipn (List.length (events s) - 5) (events s).

(** "Display events" (lines 158-162): the test is the truth value of the
    list. *)
Definition events_panel (s : State) : Panel (list string) :=
  match events s with
  | [] => panel_message "No events yet 👍"
  | _ :: _ => panel_data (recent_events s)
  end.

(** [sum(l)]: from 0, left to right. *)
Definition py_sum (l : list Q) : Q := fold_left Qplus l 0%Q.

(** [sum(l) / len(l)]; [None] is the [ZeroDivisionError] of an empty list. *)
Definition mean (l : list Q) : option Q :=
  match l with
  | [] => None
  | _ :: _ => Some (py_sum l / inject_Z (Z.of_nat (List.length l)))%Q
  end.

(** [l[-1] - avg if len(l) > 1 else None] *)
Definition delta_from (l : list Q) (avg : Q) : option Q :=
  if (1 <? List.length l)%nat then Some (last l 0%Q - avg)%Q else None.

Record KpiMetrics : Type := mkKpiMetrics {
  avg_inventory_turnover : Q;
  inventory_turnover_delta : option Q;
  avg_otif : Q;
  otif_delta : option Q;
  profit : option Z
}.

(** "Display KPIs" (lines 167-184).  The guard reads the turnover list; the
    second mean divides by the length of the otif list. *)
Definition kpi_panel (s : State) : Panel KpiMetrics :=
  let k := kpis s in
  if (0 <? List.length (inventory_turnover k))%nat then
    match mean (inventory_turnover k), mean (otif k) with
    | Some avg_turnover, Some avg_fill =>
        panel_data
          {| avg_inventory_turnover := avg_turnover;
             inventory_turnover_delta := delta_from (inventory_turnover k) avg_turnover;
             avg_otif := avg_fill;
             otif_delta := delta_from (otif k) avg_fill;
             profit := if (0 <? List.length (revenue k))%nat
                       then Some (money s - 1000000) else None |}
    | _, _ => panel_error
    end
  else panel_message "No KPI data yet. Run the simulation to generate data. ⏳".

(** "Prepare data for charts" (lines 192-198). *)
Definition weeks (s : State) : list Z := map snap_week (history s).

Definition demand_data (s : State) : list Z := map snap_demand (history s).

Definition inventory_data (field : Inventory -> Z) (s : State) : list Z :=
  map (fun h => field (snap_inventory h)) (history s).

(** "Ensure arrays are the same length as weeks" (lines 230-233): a series
    shorter than [weeks] is padded with zeros. *)
Definition pad_to_weeks (data ws : list Z) : list Z :=
  if (List.length data <? List.length ws)%nat
  then data ++ repeat 0 (List.length ws - List.length data)
  else data.

(** [[0] + st.session_state.kpis['revenue']], then padded. *)
Definition revenue_data (s : State) : list Z :=
  pad_to_weeks (0 :: revenue (kpis s)) (weeks s).

Definition costs_data (s : State) : list Z :=
  pad_to_weeks (0 :: costs (kpis s)) (weeks s).

(** The series handed to the financial chart: the x values, the heights of
    the bars and the points of the line. *)
Record FinancialChart : Type := mkFinancialChart {
  chart_weeks : list Z;
  chart_revenue : list Z;
  chart_costs : list Z
}.

(** Column 3 (lines 190-243): charts from two history entries on, the
    financial chart when there is a revenue sample and nothing in its place
    otherwise. *)
Definition financial_chart (s : State) : Panel FinancialChart :=
  if (1 <? List.length (history s))%nat then
    if (0 <? List.length (revenue (kpis s)))%nat then
      panel_data {| chart_weeks := weeks s;
                    chart_revenue := revenue_data s;
                    chart_costs := costs_data s |}
    else panel_message ""
  else panel_message
         "Run the simulation for at least 2 weeks to see visualizations. ⏳".

(** ** Runs

    A run is a sequence of clicks.  [admissible] decides whether the page
    can produce it: the draws are values the random generator returns and
    each batch is made of values the sliders return in the state in which
    Execute Decisions is clicked. *)
Inductive Action : Type :=
| click_next_week (r : Draws)
| click_execute (d : Decisions)
| click_reset.

Definition perform (a : Action) (s : State) : State :=
  match a with
  | click_next_week r => next_week r s
  | click_execute d => fst (execute_decisions d s)
  | click_reset => reset_simulation s
  end.

Definition run (l : list Action) (s : State) : State :=
  fold_left (fun t a => perform a t) l s.

Definition valid_draws_b (r : Draws) : bool :=
  Qle_bool 0 (roll r) && negb (Qle_bool 1 (roll r))
  && (choice r <? List.length possible_events)%nat
  && Qle_bool (9 # 10) (variation r) && Qle_bool (variation r) (11 # 10).

Definition slider_returns_b (min_value max_value value v : Z) : bool :=
  (fst (slider_bounds min_value max_value value) <=? v)
  && (v <=? snd (slider_bounds min_value max_value value)).

Definition sliders_return_b (s : State) (d : Decisions) : bool :=
  slider_returns_b 0 (raw_materials (inventory s)) 100 (raw_to_api d)
  && slider_returns_b 0 (api (inventory s)) 50 (api_to_finished d)
  && slider_returns_b 0 5000 100 (raw_materials_to_buy d).

Fixpoint admissible (l : list Action) (s : State) : bool :=
  match l with
  | [] => true
  | a :: l' =>
      match a with
      | click_next_week r => valid_draws_b r
      | click_execute d => sliders_return_b s d
      | click_reset => true
      end
      && admissible l' (perform a s)
  end.

(** [l] is an initial segment of [l']. *)
Definition extends {A : Type} (l l' : list A) : Prop :=
  exists added : list A, l' = l ++ added.

(** The history entry that a tick from [s] records. *)
Definition snapshot_of (s : State) : Snapshot :=
  {| snap_week := week s; snap_money := money s;
     snap_inventory := inventory s; snap_demand := demand s |}.

(** The number of units in stock, all three goods together. *)
Definition stock_units (i : Inventory) : Z :=
  raw_materials i + api i + finished_products i.

(** A batch that only converts raw material. *)
Definition convert_only (amount : Z) : Decisions :=
  {| raw_to_api := amount; api_to_finished := 0; raw_materials_to_buy := 0 |}.

(** The logs of a state and of the state one click later. *)
Definition logs_extend (s s' : State) : Prop :=
  extends (history s) (history s') /\
  extends (events s) (events s') /\
  extends (inventory_turnover (kpis s)) (inventory_turnover (kpis s')) /\
  extends (otif (kpis s)) (otif (kpis s')) /\
  extends (costs (kpis s)) (costs (kpis s')) /\
  extends (revenue (kpis s)) (revenue (kpis s')) /\
  week s <= week s'.

(** ** Concrete inputs *)

(** A tick in which event number [i] of the table fires. *)
Definition event_draws (i : nat) : Draws :=
  {| roll := 1 # 10; choice := i; variation := 1 |}.

(** The largest purchase the slider allows, and nothing else. *)
Definition bulk_purchase : Decisions :=
  {| raw_to_api := 0; api_to_finished := 0; raw_materials_to_buy := 5000 |}.

(** A tick in which no event fires and demand does not move. *)
Definition quiet_draws : Draws := {| roll := 1 # 2; choice := 0; variation := 1 |}.

(** A tick in which the Quality Issue event fires. *)
Definition quality_draws : Draws := {| roll := 1 # 10; choice := 3; variation := 1 |}.

(** The sliders at their default positions. *)
Definition default_decisions : Decisions :=
  {| raw_to_api := 100; api_to_finished := 50; raw_materials_to_buy := 100 |}.

(** The initial state with only 500 left in the budget. *)
Definition poor_state : State := with_money initial_state 500.

(** The whole stock of raw material converted: the first slider at its
    maximum, the second at its default, nothing bought. *)
Definition convert_all_raw : Decisions :=
  {| raw_to_api := 5000; api_to_finished := 50; raw_materials_to_buy := 0 |}.

(** The two conversion sliders at their defaults, nothing bought. *)
Definition default_conversions : Decisions :=
  {| raw_to_api := 100; api_to_finished := 50; raw_materials_to_buy := 0 |}.

(** The state in which no raw material is left. *)
Definition stocked_out : State := fst (execute_decisions convert_all_raw initial_state).

(** Two clicks on Execute Decisions: all the raw material is converted, then
    the sliders are left at their defaults. *)
Definition stock_out_run : list Action :=
  [click_execute convert_all_raw; click_execute default_conversions].





(** Four quiet weeks sell the finished products, thirty-two bulk purchases
    spend the budget, and then raw material runs short. *)
Definition overdrawn_run : list Action :=
  repeat (click_next_week quiet_draws) 4
  ++ repeat (click_execute bulk_purchase) 32
  ++ [click_next_week (event_draws 2)].

(** Three weeks with a batch and a reset in between. *)
Definition three_weeks : list Action :=
  [ click_next_week quiet_draws; click_execute default_decisions;
    click_next_week quality_draws; click_reset;
    click_next_week (event_draws 1) ].

Definition only_reset : Clicks :=
  {| next_week_clicked := false; reset_clicked := true; execute_clicked := false |}.

Definition no_click : Clicks :=
  {| next_week_clicked := false; reset_clicked := false; execute_clicked := false |}.




(** ** Concrete runs *)

Example contains_spike :
  map (fun e => contains "Demand Spike" (name e)) possible_events
  = [false; true; false; false; false].
Proof. reflexivity. Qed.

Example event_line_3 :
  event_line 3 (nth 3 possible_events (mkEvent "" ""))
  = "Week 3: 🔬 Quality Issue - 10% of production batch rejected"%string.
Proof. reflexivity. Qed.

Example first_quiet_week :
  let s := next_week quiet_draws initial_state in
  week s = 2 /\ money s = 1150000 /\ demand s = 500 /\
  inventory s = {| raw_materials := 5000; api := 3000; finished_products := 1500 |} /\
  costs (kpis s) = [600000] /\ revenue (kpis s) = [150000] /\
  events s = [] /\
  history s = [ {| snap_week := 1; snap_money := 1000000;
                   snap_inventory := inventory initial_state;
                   snap_demand := 500 |} ].
Proof. vm_compute. repeat split. Qed.

Example first_quality_week :
  let s := next_week quality_draws initial_state in
  finished_products (inventory s) = 1300 /\ costs (kpis s) = [560000] /\
  events s = ["Week 2: 🔬 Quality Issue - 10% of production batch rejected"%string].
Proof. vm_compute. repeat split. Qed.

Example default_batch :
  let s := fst (execute_decisions default_decisions initial_state) in
  inventory s = {| raw_materials := 5000; api := 3030; finished_products := 2045 |} /\
  money s = 999000.
Proof. vm_compute. repeat split. Qed.

(** Reset does not bring the initial values back: the rerun finds the key. *)
Example reset_keeps_the_run :
  let s := next_week quiet_draws initial_state in
  initialize (Some (reset_simulation s)) = with_initialized s false /\
  week (initialize (Some (reset_simulation s))) = 2.
Proof. vm_compute. repeat split. Qed.

(** ** Truncation *)

Lemma py_int_mulf (n a : Z) (b : positive) :
  py_int (mulf n (a # b)) = Z.quot (n * a) (Z.pos b).
Proof. reflexivity. Qed.

Lemma py_int_nonneg (x : Q) : (0 <= x)%Q -> 0 <= py_int x.
Proof.
  destruct x as [n d]. unfold Qle, py_int. simpl. intros H.
  apply Z.quot_pos; lia.
Qed.


Lemma mulf_nonneg (n : Z) (c : Q) : 0 <= n -> (0 <= c)%Q -> (0 <= mulf n c)%Q.
Proof.
  intros Hn Hc. unfold mulf. apply Qmult_le_0_compat; [|exact Hc].
  unfold Qle. simpl. lia.
Qed.

Lemma py_int_mulf_nonneg (n : Z) (c : Q) :
  0 <= n -> (0 <= c)%Q -> 0 <= py_int (mulf n c).
Proof. intros Hn Hc. apply py_int_nonneg, mulf_nonneg; assumption. Qed.

(** ** Runs and reachability *)

Example overdrawn_run_result :
  let s := run overdrawn_run initial_state in
  admissible overdrawn_run initial_state = true /\
  money s = -41250 /\ week s = 6 /\
  inventory s = {| raw_materials := 165000; api := 3000; finished_products := 0 |}.
Proof. vm_compute. repeat split. Qed.

Lemma valid_draws_b_sound (r : Draws) : valid_draws_b r = true -> valid_draws r.
Proof.
  unfold valid_draws_b, valid_draws. intros H.
  repeat (apply andb_prop in H; destruct H as [H ?]).
  repeat split.
  - apply Qle_bool_iff; assumption.
  - apply Qnot_le_lt. intros Hle. apply Qle_bool_iff in Hle.
    destruct (Qle_bool 1 (roll r)); discriminate.
  - apply Nat.ltb_lt; assumption.
  - apply Qle_bool_iff; assumption.
  - apply Qle_bool_iff; assumption.
Qed.

Lemma sliders_return_b_sound (s : State) (d : Decisions) :
  sliders_return_b s d = true -> sliders_return s d.
Proof.
  unfold sliders_return_b, sliders_return, slider_returns_b, slider_returns.
  intros H.
  repeat match goal with
         | H : (_ && _) = true |- _ => apply andb_prop in H; destruct H
         | H : (_ <=? _) = true |- _ => apply Z.leb_le in H
         end.
  repeat split; assumption.
Qed.

(** Within stock, a batch is one the sliders can return as long as it buys
    at most 5000 units. *)
Lemma within_stock_sliders_return (s : State) (d : Decisions) :
  within_stock s d -> raw_materials_to_buy d <= 5000 -> sliders_return s d.
Proof.
  unfold within_stock, sliders_return, slider_returns, slider_bounds.
  cbn [fst snd]. intros (Hr & Ha & Hb) Hmax. lia.
Qed.

Lemma admissible_reachable (l : list Action) (s : State) :
  reachable s -> admissible l s = true -> reachable (run l s).
Proof.
  revert s. induction l as [| a l IH]; intros s Hs Hl.
  - exact Hs.
  - cbn [admissible] in Hl. apply andb_prop in Hl. destruct Hl as [Ha Hl].
    cbn [run fold_left]. apply IH; [| exact Hl].
    destruct a as [r | d |]; cbn [perform].
    + apply reach_next_week; [exact Hs | apply valid_draws_b_sound, Ha].
    + apply reach_execute, Hs.
    + apply reach_reset, Hs.
Qed.

Lemma run_app (l1 l2 : list Action) (s : State) :
  run (l1 ++ l2) s = run l2 (run l1 s).
Proof. unfold run. apply fold_left_app. Qed.

(** ** Non-negative inventory *)

Lemma apply_event_effects_nonneg (e : Event) (s : State) :
  inventory_nonneg (inventory s) ->
  inventory_nonneg (inventory (apply_event_effects e s)).
Proof.
  intros (Hr & Ha & Hf).
  unfold apply_event_effects.
  repeat match goal with
         | |- context [if ?b then _ else _] => destruct b
         end;
    unfold inventory_nonneg; simpl; repeat split; try assumption;
    apply py_int_mulf_nonneg; (assumption || (unfold Qle; simpl; lia)).
Qed.

Section Preservation.

Variable s : State.
Hypothesis stock : inventory_nonneg (inventory s).

Lemma random_events_nonneg (r : Draws) :
  inventory_nonneg (inventory (random_events r s)).
Proof.
  unfold random_events. destruct (Qlt_le_dec (roll r) (3 # 10)).
  - apply apply_event_effects_nonneg. exact stock.
  - exact stock.
Qed.

Lemma update_kpis_and_financials_nonneg :
  inventory_nonneg (inventory (update_kpis_and_financials s)).
Proof.
  destruct stock as (Hr & Ha & Hf).
  unfold update_kpis_and_financials, sold_products, inventory_nonneg.
  simpl. repeat split; lia.
Qed.

Lemma apply_decisions_nonneg (d : Decisions) :
  within_stock s d ->
  inventory_nonneg (inventory (apply_decisions d s)).
Proof.
  intros (Hra & Haf & Hbuy).
  destruct stock as (Hr & Ha & Hf).
  assert (0 <= py_int (mulf (raw_to_api d) (8 # 10)))
    by (apply py_int_mulf_nonneg; [lia | unfold Qle; simpl; lia]).
  assert (0 <= py_int (mulf (api_to_finished d) (9 # 10)))
    by (apply py_int_mulf_nonneg; [lia | unfold Qle; simpl; lia]).
  unfold apply_decisions, inventory_nonneg. simpl. repeat split; lia.
Qed.

Lemma execute_decisions_nonneg (d : Decisions) :
  within_stock s d ->
  inventory_nonneg (inventory (fst (execute_decisions d s))).
Proof.
  intros Hd. unfold execute_decisions.
  destruct (raw_materials_to_buy d * 10 <=? money s); simpl.
  - apply apply_decisions_nonneg, Hd.
  - exact stock.
Qed.

End Preservation.

Lemma before_settlement_nonneg (r : Draws) (s : State) :
  inventory_nonneg (inventory s) ->
  inventory_nonneg (inventory (before_settlement r s)).
Proof.
  intros H. unfold before_settlement, natural_demand_variation. simpl.
  apply random_events_nonneg. exact H.
Qed.

Lemma next_week_nonneg (r : Draws) (s : State) :
  inventory_nonneg (inventory s) ->
  inventory_nonneg (inventory (next_week r s)).
Proof.
  intros H. change (next_week r s)
    with (update_kpis_and_financials (before_settlement r s)).
  apply update_kpis_and_financials_nonneg, before_settlement_nonneg, H.
Qed.


Lemma reachable_within_stock_nonneg (s : State) :
  reachable_within_stock s -> inventory_nonneg (inventory s).
Proof.
  intros H. induction H as [ | r s Hs IH | d s Hs IH Hd | s Hs IH ].
  - unfold inventory_nonneg; simpl; lia.
  - apply next_week_nonneg, IH.
  - apply execute_decisions_nonneg; assumption.
  - exact IH.
Qed.




(** ** Execute Decisions *)

(** C1.  A batch whose purchase cost exceeds the budget changes nothing: the
    handler returns the state it was given, inventory and money included,
    and shows the insufficient-funds error. *)
Theorem unaffordable_batch_rejected (d : Decisions) (s : State) :
  money s < raw_materials_to_buy d * 10 ->
  execute_decisions d s
  = (s, error "Insufficient funds to purchase raw materials! 💸") /\
  inventory (fst (execute_decisions d s)) = inventory s /\
  money (fst (execute_decisions d s)) = money s.
Proof.
  intros H. unfold execute_decisions.
  destruct (Z.leb_spec (raw_materials_to_buy d * 10) (money s)) as [Hle | Hgt].
  - lia.
  - repeat split.
Qed.

Lemma unaffordable_batch_rejected_witness :
  money poor_state = 500 /\
  raw_materials_to_buy default_decisions * 10 = 1000 /\
  execute_decisions default_decisions poor_state
  = (poor_state, error "Insufficient funds to purchase raw materials! 💸").
Proof.
  split; [reflexivity | split; [reflexivity |]].
  apply (unaffordable_batch_rejected default_decisions poor_state).
  simpl. lia.
Defined.

Lemma execute_decisions_kpis (d : Decisions) (s : State) :
  kpis (fst (execute_decisions d s)) = kpis s.
Proof.
  unfold execute_decisions.
  destruct (raw_materials_to_buy d * 10 <=? money s); reflexivity.
Qed.

(** C10.  Execute Decisions leaves the week, the demand, the event log, the
    four KPI sequences and the history as they were; only the inventory and
    the money can differ. *)
Theorem execute_decisions_frame (d : Decisions) (s : State) :
  let s' := fst (execute_decisions d s) in
  week s' = week s /\
  demand s' = demand s /\
  events s' = events s /\
  inventory_turnover (kpis s') = inventory_turnover (kpis s) /\
  otif (kpis s') = otif (kpis s) /\
  costs (kpis s') = costs (kpis s) /\
  revenue (kpis s') = revenue (kpis s) /\
  history s' = history s /\
  initialized s' = initialized s.
Proof.
  unfold execute_decisions.
  destruct (raw_materials_to_buy d * 10 <=? money s); simpl; repeat split.
Qed.

(** C3 fails on the code.  With no raw material in stock the raw-material
    slider still returns its default 100; the batch asks for more than the
    stock and the handler applies it in full. *)
Lemma excess_batch_is_applied :
  admissible stock_out_run initial_state = true /\
  raw_materials (inventory stocked_out) = 0 /\
  raw_materials (inventory stocked_out) < raw_to_api default_conversions /\
  snd (execute_decisions default_conversions stocked_out)
  = success "Decisions executed successfully! 🎉" /\
  inventory (fst (execute_decisions default_conversions stocked_out))
  = {| raw_materials := -100; api := 6980; finished_products := 2090 |} /\
  fst (execute_decisions default_conversions stocked_out) <> stocked_out.
Proof.
  repeat split; try (vm_compute; reflexivity).
  vm_compute. discriminate.
Qed.

(** C3, as the code has it.  The handler does not look at the sign or the
    size of the amounts: its only test is affordability.  A batch whose
    purchase cost is within the budget is applied exactly as submitted, and
    a batch whose cost exceeds the budget is refused before anything is
    changed, with the insufficient-funds error. *)
Theorem execute_decisions_checks_only_cost (d : Decisions) (s : State) :
  (raw_materials_to_buy d * 10 <= money s ->
   snd (execute_decisions d s) = success "Decisions executed successfully! 🎉" /\
   inventory (fst (execute_decisions d s))
   = {| raw_materials :=
          raw_materials (inventory s) - raw_to_api d + raw_materials_to_buy d;
        api :=
          api (inventory s) + Z.quot (raw_to_api d * 8) 10 - api_to_finished d;
        finished_products :=
          finished_products (inventory s) + Z.quot (api_to_finished d * 9) 10 |} /\
   money (fst (execute_decisions d s)) = money s - raw_materials_to_buy d * 10) /\
  (money s < raw_materials_to_buy d * 10 ->
   execute_decisions d s
   = (s, error "Insufficient funds to purchase raw materials! 💸")).
Proof.
  unfold execute_decisions.
  destruct (Z.leb_spec (raw_materials_to_buy d * 10) (money s)) as [Hle | Hgt];
    split; intros H; try lia.
  - unfold apply_decisions. cbn [fst snd inventory money with_money with_inventory].
    rewrite !py_int_mulf. repeat split.
  - reflexivity.
Qed.

Lemma execute_decisions_checks_only_cost_witness :
  raw_materials_to_buy default_conversions * 10 <= money stocked_out /\
  raw_materials (inventory stocked_out) < raw_to_api default_conversions /\
  raw_materials (inventory (fst (execute_decisions default_conversions stocked_out)))
  = 0 - 100 + 0 /\
  money poor_state < raw_materials_to_buy default_decisions * 10 /\
  execute_decisions default_decisions poor_state
  = (poor_state, error "Insufficient funds to purchase raw materials! 💸").
Proof.
  assert (Hcost : raw_materials_to_buy default_conversions * 10 <= money stocked_out)
    by (vm_compute; discriminate).
  assert (Hpoor : money poor_state < raw_materials_to_buy default_decisions * 10)
    by (vm_compute; reflexivity).
  split; [exact Hcost | split; [vm_compute; reflexivity |]].
  destruct (proj1 (execute_decisions_checks_only_cost default_conversions stocked_out)
              Hcost) as (_ & Hinv & _).
  split; [rewrite Hinv; reflexivity |].
  split; [exact Hpoor |].
  exact (proj2 (execute_decisions_checks_only_cost default_decisions poor_state) Hpoor).
Defined.



(** ** Next Week *)

(** What the steps before "Calculate KPIs" leave alone. *)
Lemma apply_event_effects_frame (e : Event) (s : State) :
  let s' := apply_event_effects e s in
  kpis s' = kpis s /\ history s' = history s /\ week s' = week s /\
  events s' = events s /\
  raw_materials (inventory s') = raw_materials (inventory s) /\
  api (inventory s') = api (inventory s).
Proof.
  unfold apply_event_effects.
  repeat match goal with
         | |- context [if ?b then _ else _] => destruct b
         end; simpl; repeat split.
Qed.

Lemma before_settlement_frame (r : Draws) (s : State) :
  let pre := before_settlement r s in
  kpis pre = kpis s /\
  raw_materials (inventory pre) = raw_materials (inventory s) /\
  api (inventory pre) = api (inventory s) /\
  week pre = week s + 1.
Proof.
  unfold before_settlement, natural_demand_variation, random_events. simpl.
  destruct (Qlt_le_dec (roll r) (3 # 10)).
  - match goal with
    | |- context [apply_event_effects ?e ?t] =>
        destruct (apply_event_effects_frame e t) as (Hk & _ & Hw & _ & Hr & Ha)
    end.
    rewrite Hk, Hr, Ha, Hw. simpl. repeat split.
  - simpl. repeat split.
Qed.

Lemma next_week_unfold (r : Draws) (s : State) :
  next_week r s = update_kpis_and_financials (before_settlement r s).
Proof. reflexivity. Qed.


(** C5.  Every tick settles sales once, whatever the draws and the state:
    [sold = min(finished_products, demand)] on the stock and demand the tick
    has reached, one revenue sample [sold * 300] is appended, the stock of
    finished products goes down by [sold] and the money up by the revenue.
    From 2000 finished products and a demand of 500: 500 sold, fill rate 1,
    revenue 150000, 1500 finished products left. *)
Theorem settlement_every_tick :
  (forall (r : Draws) (s : State),
     let pre := before_settlement r s in
     let s' := next_week r s in
     let sold := Z.min (finished_products (inventory pre)) (demand pre) in
     finished_products (inventory s') = finished_products (inventory pre) - sold /\
     money s' = money pre + sold * 300 /\
     revenue (kpis s') = revenue (kpis s) ++ [sold * 300] /\
     List.length (otif (kpis s')) = S (List.length (otif (kpis s))) /\
     List.length (inventory_turnover (kpis s'))
     = S (List.length (inventory_turnover (kpis s))) /\
     List.length (costs (kpis s')) = S (List.length (costs (kpis s))) /\
     raw_materials (inventory s') = raw_materials (inventory pre) /\
     api (inventory s') = api (inventory pre) /\
     demand s' = demand pre) /\
  (let pre := before_settlement quiet_draws initial_state in
   let s' := next_week quiet_draws initial_state in
   finished_products (inventory pre) = 2000 /\ demand pre = 500 /\
   sold_products pre = 500 /\
   (exists q, otif (kpis s') = [q] /\ (q == 1)%Q) /\
   revenue (kpis s') = [150000] /\
   money s' = money pre + 150000 /\
   finished_products (inventory s') = 1500).
Proof.
  split.
  - intros r s pre s' sold.
    assert (Hk : kpis pre = kpis s) by apply before_settlement_frame.
    assert (Hs' : s' = update_kpis_and_financials pre) by reflexivity.
    clearbody s' pre. subst s'.
    unfold update_kpis_and_financials, sold_products in *. simpl.
    rewrite Hk, !length_app. simpl.
    repeat split; lia.
  - vm_compute. repeat split.
    eexists. split; [reflexivity | reflexivity].
Qed.

(** The quotient of two integers, the divisor positive. *)
Lemma truediv_le_1 (a b : Z) : a <= b -> 0 < b -> (truediv a b <= 1)%Q.
Proof.
  intros Ha Hb. unfold truediv.
  apply Qle_shift_div_r; [unfold Qlt; simpl; lia |].
  rewrite Qmult_1_l. unfold Qle; simpl; lia.
Qed.


Lemma truediv_negative (a b : Z) : a < 0 -> 0 < b -> (truediv a b < 0)%Q.
Proof.
  intros Ha Hb. unfold truediv.
  apply Qlt_shift_div_r; [unfold Qlt; simpl; lia |].
  rewrite Qmult_0_l. unfold Qlt; simpl; lia.
Qed.





(** C6.  The turnover a tick records is [sold / (finished_products + 0.1)]
    with the stock of finished products as it stands before the sale is
    taken off, that is the stock left after the tick plus what was sold.
    With 500 sold out of 2000 the sample is 500/2000.1. *)
Theorem turnover_uses_stock_before_sale :
  (forall (r : Draws) (s : State),
     let pre := before_settlement r s in
     let s' := next_week r s in
     let sold := Z.min (finished_products (inventory pre)) (demand pre) in
     inventory_turnover (kpis s')
     = inventory_turnover (kpis s)
       ++ [ (inject_Z sold
             / (inject_Z (finished_products (inventory pre)) + (1 # 10)))%Q ] /\
     finished_products (inventory pre)
     = finished_products (inventory s') + sold) /\
  (exists q : Q,
     inventory_turnover (kpis (next_week quiet_draws initial_state)) = [q] /\
     (q == inject_Z 500 / (20001 # 10))%Q).
Proof.
  split.
  - intros r s pre s' sold.
    assert (Hk : kpis pre = kpis s) by apply before_settlement_frame.
    assert (Hs' : s' = update_kpis_and_financials pre) by reflexivity.
    clearbody s' pre. subst s'.
    unfold update_kpis_and_financials, turnover_of, sold_products in *. simpl.
    rewrite Hk. split; [reflexivity | lia].
  - eexists. split; [vm_compute; reflexivity | vm_compute; reflexivity].
Qed.

Lemma otif_of_le_1 (s : State) : (otif_of s <= 1)%Q.
Proof.
  unfold otif_of. destruct (Z.ltb_spec 0 (demand s)) as [Hd | Hd].
  - apply truediv_le_1; [unfold sold_products; lia | exact Hd].
  - apply Qle_refl.
Qed.

(** No fill rate on record exceeds 1, whatever batches were executed. *)
Lemma reachable_fill_rates (s : State) :
  reachable s -> Forall (fun q => (q <= 1)%Q) (otif (kpis s)).
Proof.
  intros H.
  induction H as [ | r s Hs IH Hr | d s Hs IH | s Hs IH ].
  - constructor.
  - rewrite next_week_unfold.
    assert (Hk : kpis (before_settlement r s) = kpis s)
      by apply before_settlement_frame.
    generalize dependent (before_settlement r s). intros p Hk.
    unfold update_kpis_and_financials. simpl. rewrite Hk.
    apply Forall_app. split; [exact IH |].
    constructor; [apply otif_of_le_1 | constructor].
  - rewrite execute_decisions_kpis. exact IH.
  - exact IH.
Qed.

Lemma stock_before_sale (p : State) :
  finished_products (inventory p)
  = finished_products (inventory (update_kpis_and_financials p))
    + Z.min (finished_products (inventory p)) (demand p).
Proof. unfold update_kpis_and_financials, sold_products. simpl. lia. Qed.

(** C7.  The inventory value a tick records is
    [raw_materials * 10 + api * 50 + finished_products * 200], with the raw
    material and API quantities as the conversions executed before the tick
    left them and the finished products as they stand before the sale of the
    tick is taken off. *)
Theorem inventory_value_sample (r : Draws) (d : Decisions) (s0 : State) :
  let s := fst (execute_decisions d s0) in
  let pre := before_settlement r s in
  let s' := next_week r s in
  let sold := Z.min (finished_products (inventory pre)) (demand pre) in
  costs (kpis s')
  = costs (kpis s0)
    ++ [ raw_materials (inventory s) * 10 + api (inventory s) * 50
         + (finished_products (inventory s') + sold) * 200 ] /\
  costs (kpis (next_week r s0))
  = costs (kpis s0)
    ++ [ raw_materials (inventory (before_settlement r s0)) * 10
         + api (inventory (before_settlement r s0)) * 50
         + finished_products (inventory (before_settlement r s0)) * 200 ].
Proof.
  intros s pre s' sold.
  assert (Hframe : forall t : State,
             costs (kpis (next_week r t))
             = costs (kpis t)
               ++ [total_inventory_value (inventory (before_settlement r t))]).
  { intros t. rewrite next_week_unfold.
    assert (Hk : kpis (before_settlement r t) = kpis t)
      by apply before_settlement_frame.
    generalize dependent (before_settlement r t). intros p Hk.
    unfold update_kpis_and_financials. simpl. rewrite Hk. reflexivity. }
  split.
  - unfold s'. rewrite Hframe. fold pre.
    assert (Hc : costs (kpis s) = costs (kpis s0))
      by (unfold s; rewrite execute_decisions_kpis; reflexivity).
    destruct (before_settlement_frame r s) as (_ & Hr & Ha & _).
    fold pre in Hr, Ha.
    assert (Hfp : finished_products (inventory pre)
                  = finished_products (inventory (next_week r s)) + sold).
    { rewrite next_week_unfold. fold pre. apply stock_before_sale. }
    rewrite Hc. unfold total_inventory_value.
    rewrite Hr, Ha, Hfp. reflexivity.
  - rewrite Hframe. reflexivity.
Qed.

(** ** One pass: Next Week, then Execute Decisions *)

Lemma execute_decisions_cases (d : Decisions) (s : State) :
  (raw_materials_to_buy d * 10 <= money s ->
   execute_decisions d s
   = (apply_decisions d s, success "Decisions executed successfully! 🎉")) /\
  (money s < raw_materials_to_buy d * 10 ->
   execute_decisions d s
   = (s, error "Insufficient funds to purchase raw materials! 💸")).
Proof.
  unfold execute_decisions.
  destruct (Z.leb_spec (raw_materials_to_buy d * 10) (money s));
    split; intros; (reflexivity || lia).
Qed.



(** ** The rational reading against binary64 *)

Example binary64_literal_08 :
  Binary64.literal 8 10 = S754_finite false 7205759403792794 (-53).
Proof. vm_compute. reflexivity. Qed.

(** A product on which the two readings differ: [int(100 * 0.29)] is 28. *)
Example binary64_differs_elsewhere :
  Binary64.int_mul 100 (Binary64.literal 29 100) = Some 28 /\
  py_int (mulf 100 (29 # 100)) = 29.
Proof. vm_compute. split; reflexivity. Qed.

Lemma agree_upto_sound (a : Z) (b : positive) (n : nat) :
  Binary64.agree_upto a b n = true ->
  forall k : nat, (k <= n)%nat ->
    Binary64.int_mul (Z.of_nat k) (Binary64.literal a b)
    = Some (py_int (mulf (Z.of_nat k) (a # b))).
Proof.
  induction n as [| n IH]; intros H k Hk.
  - assert (k = 0%nat) by lia. subst k.
    cbn [Binary64.agree_upto] in H. apply andb_prop in H. destruct H as [H _].
    destruct (Binary64.int_mul (Z.of_nat 0) (Binary64.literal a b)); [| discriminate].
    apply Z.eqb_eq in H. subst. reflexivity.
  - cbn [Binary64.agree_upto] in H. apply andb_prop in H. destruct H as [H Hrest].
    destruct (Nat.eq_dec k (S n)) as [-> | Hne].
    + destruct (Binary64.int_mul (Z.of_nat (S n)) (Binary64.literal a b));
        [| discriminate].
      apply Z.eqb_eq in H. subst. reflexivity.
    + apply IH; [exact Hrest | lia].
Qed.

(** X16.  On every amount from 0 to 5000 the five truncated products of the
    script, computed in binary64 as Python does, are the truncations of the
    exact products: [int(n * 0.8)] is [n * 8 / 10] rounded toward zero, and
    likewise for 0.9, 0.95, 0.25 and 1.3. *)
Lemma binary64_products_agree (n : Z) :
  0 <= n <= 5000 ->
  Binary64.int_mul n (Binary64.literal 8 10) = Some (py_int (mulf n (8 # 10))) /\
  Binary64.int_mul n (Binary64.literal 9 10) = Some (py_int (mulf n (9 # 10))) /\
  Binary64.int_mul n (Binary64.literal 95 100) = Some (py_int (mulf n (95 # 100))) /\
  Binary64.int_mul n (Binary64.literal 25 100) = Some (py_int (mulf n (25 # 100))) /\
  Binary64.int_mul n (Binary64.literal 13 10) = Some (py_int (mulf n (13 # 10))).
Proof.
  intros Hn.
  assert (Hk : (Z.to_nat n <= Z.to_nat 5000)%nat) by lia.
  rewrite <- (Z2Nat.id n) by lia.
  repeat split;
    (apply agree_upto_sound with (n := Z.to_nat 5000); [vm_compute; reflexivity | exact Hk]).
Qed.

(** The turnover sample of the first quiet week in binary64, against the
    rational 500/2000.1: they differ by less than 2^-54. *)
Example binary64_turnover :
  Binary64.div (Binary64.of_int 500)
    (Binary64.add (Binary64.of_int 2000) (Binary64.literal 1 10))
  = S754_finite false 9006748917295128 (-55) /\
  (Qabs ((9006748917295128 # 36028797018963968) - inject_Z 500 / (20001 # 10))
   < (1 # 18014398509481984))%Q.
Proof. split; vm_compute; reflexivity. Qed.

(** ** What each handler does to the logs *)

Lemma random_events_log (r : Draws) (s : State) :
  history (random_events r s) = history s /\
  week (random_events r s) = week s /\
  kpis (random_events r s) = kpis s /\
  events (random_events r s)
  = events s ++ (if Qlt_le_dec (roll r) (3 # 10)
                 then [event_line (week s) (chosen_event r)] else []).
Proof.
  unfold random_events. destruct (Qlt_le_dec (roll r) (3 # 10)).
  - match goal with
    | |- context [apply_event_effects ?e ?t] =>
        destruct (apply_event_effects_frame e t) as (Hk & Hh & Hw & He & _)
    end.
    rewrite Hk, Hh, Hw, He. repeat split.
  - rewrite app_nil_r. repeat split.
Qed.

Lemma apply_event_effects_initialized (e : Event) (s : State) :
  initialized (apply_event_effects e s) = initialized s.
Proof.
  unfold apply_event_effects.
  repeat match goal with
         | |- context [if ?b then _ else _] => destruct b
         end; reflexivity.
Qed.

Lemma next_week_log (r : Draws) (s : State) :
  history (next_week r s) = history s ++ [snapshot_of s] /\
  week (next_week r s) = week s + 1 /\
  events (next_week r s)
  = events s ++ (if Qlt_le_dec (roll r) (3 # 10)
                 then [event_line (week s + 1) (chosen_event r)] else []) /\
  initialized (next_week r s) = initialized s.
Proof.
  unfold next_week, update_kpis_and_financials, natural_demand_variation.
  cbn [history week events initialized with_inventory with_money with_kpis with_demand].
  destruct (random_events_log r (progress_time (record_previous_state s)))
    as (Hh & Hw & _ & He).
  rewrite Hh, Hw, He. repeat split.
  unfold random_events. destruct (Qlt_le_dec (roll r) (3 # 10)).
  - rewrite apply_event_effects_initialized. reflexivity.
  - reflexivity.
Qed.

Lemma next_week_samples (r : Draws) (s : State) :
  exists (t o : Q) (c v : Z),
    inventory_turnover (kpis (next_week r s)) = inventory_turnover (kpis s) ++ [t] /\
    otif (kpis (next_week r s)) = otif (kpis s) ++ [o] /\
    costs (kpis (next_week r s)) = costs (kpis s) ++ [c] /\
    revenue (kpis (next_week r s)) = revenue (kpis s) ++ [v].
Proof.
  rewrite next_week_unfold.
  assert (Hk : kpis (before_settlement r s) = kpis s)
    by apply before_settlement_frame.
  generalize dependent (before_settlement r s). intros p Hk.
  unfold update_kpis_and_financials. simpl. rewrite Hk.
  do 4 eexists. repeat split.
Qed.

Lemma execute_decisions_log (d : Decisions) (s : State) :
  history (fst (execute_decisions d s)) = history s /\
  week (fst (execute_decisions d s)) = week s /\
  events (fst (execute_decisions d s)) = events s /\
  demand (fst (execute_decisions d s)) = demand s.
Proof.
  unfold execute_decisions.
  destruct (raw_materials_to_buy d * 10 <=? money s); simpl; repeat split.
Qed.

(** ** Counters and logs *)

(** X1.  The week shown is one more than the number of history entries, and
    the entries carry the weeks 1, 2, ..., in order: neither Execute
    Decisions nor Reset moves the counter or the history. *)
Theorem week_counts_ticks (s : State) :
  reachable s ->
  week s = 1 + Z.of_nat (List.length (history s)) /\
  weeks s = map Z.of_nat (seq 1 (List.length (history s))).
Proof.
  intros H. unfold weeks.
  induction H as [ | r s Hs (IHw & IHl) Hr | d s Hs IH | s Hs IH ].
  - simpl. split; reflexivity.
  - destruct (next_week_log r s) as (Hh & Hw & _).
    rewrite Hh, Hw, length_app, map_app. cbn [List.length map snap_week snapshot_of].
    rewrite Nat.add_1_r, seq_S, map_app, <- IHl. cbn [map].
    split.
    + lia.
    + rewrite IHw. do 3 f_equal. lia.
  - destruct (execute_decisions_log d s) as (Hh & Hw & _).
    rewrite Hh, Hw. exact IH.
  - exact IH.
Qed.

Lemma week_counts_ticks_witness :
  reachable (run three_weeks initial_state) /\
  week (run three_weeks initial_state) = 4 /\
  weeks (run three_weeks initial_state) = [1; 2; 3].
Proof.
  assert (H : reachable (run three_weeks initial_state))
    by (apply admissible_reachable; [apply reach_initial | vm_compute; reflexivity]).
  split; [exact H |].
  destruct (week_counts_ticks _ H) as (Hw & Hl).
  split; [rewrite Hw | rewrite Hl]; vm_compute; reflexivity.
Defined.

(** The four KPI lists and the history have one entry per tick. *)
Lemma reachable_sample_counts (s : State) :
  reachable s ->
  List.length (inventory_turnover (kpis s)) = List.length (history s) /\
  List.length (otif (kpis s)) = List.length (history s) /\
  List.length (costs (kpis s)) = List.length (history s) /\
  List.length (revenue (kpis s)) = List.length (history s).
Proof.
  intros H.
  induction H as [ | r s Hs (IH1 & IH2 & IH3 & IH4) Hr | d s Hs IH | s Hs IH ].
  - simpl. repeat split.
  - destruct (next_week_log r s) as (Hh & _).
    destruct (next_week_samples r s) as (t & o & c & v & H1 & H2 & H3 & H4).
    rewrite Hh, H1, H2, H3, H4, !length_app. simpl. lia.
  - destruct (execute_decisions_log d s) as (Hh & _).
    rewrite Hh, execute_decisions_kpis. exact IH.
  - exact IH.
Qed.

(** X2.  At most one event line is logged per tick, and the four KPI lists
    are index-aligned with the history: in a reachable state each of them
    has exactly as many entries as the history. *)
Theorem logs_aligned_with_history (s : State) :
  reachable s ->
  (List.length (events s) <= List.length (history s))%nat /\
  List.length (inventory_turnover (kpis s)) = List.length (history s) /\
  List.length (otif (kpis s)) = List.length (history s) /\
  List.length (costs (kpis s)) = List.length (history s) /\
  List.length (revenue (kpis s)) = List.length (history s).
Proof.
  intros H. split; [| apply reachable_sample_counts, H].
  induction H as [ | r s Hs IH Hr | d s Hs IH | s Hs IH ].
  - simpl. lia.
  - destruct (next_week_log r s) as (Hh & _ & He & _).
    rewrite Hh, He, !length_app.
    destruct (Qlt_le_dec (roll r) (3 # 10)); simpl; lia.
  - destruct (execute_decisions_log d s) as (Hh & _ & He & _).
    rewrite Hh, He. exact IH.
  - exact IH.
Qed.

Lemma logs_aligned_with_history_witness :
  reachable (run three_weeks initial_state) /\
  List.length (events (run three_weeks initial_state)) = 2%nat /\
  List.length (revenue (kpis (run three_weeks initial_state))) = 3%nat.
Proof.
  assert (H : reachable (run three_weeks initial_state))
    by (apply admissible_reachable; [apply reach_initial | vm_compute; reflexivity]).
  split; [exact H |].
  destruct (logs_aligned_with_history _ H) as (_ & _ & _ & _ & Hr).
  split; [vm_compute; reflexivity | rewrite Hr; vm_compute; reflexivity].
Defined.

Lemma extends_refl {A : Type} (l : list A) : extends l l.
Proof. exists []. symmetry. apply app_nil_r. Qed.

Lemma extends_app {A : Type} (l added : list A) : extends l (l ++ added).
Proof. exists added. reflexivity. Qed.

Lemma extends_trans {A : Type} (l1 l2 l3 : list A) :
  extends l1 l2 -> extends l2 l3 -> extends l1 l3.
Proof.
  intros (a & ->) (b & ->). exists (a ++ b). symmetry. apply app_assoc.
Qed.

Lemma perform_logs_extend (a : Action) (s : State) : logs_extend s (perform a s).
Proof.
  unfold logs_extend. destruct a as [r | d |]; cbn [perform].
  - destruct (next_week_log r s) as (Hh & Hw & He & _).
    destruct (next_week_samples r s) as (t & o & c & v & H1 & H2 & H3 & H4).
    rewrite Hh, Hw, He, H1, H2, H3, H4.
    repeat split; try apply extends_app. lia.
  - destruct (execute_decisions_log d s) as (Hh & Hw & He & _).
    rewrite Hh, Hw, He, execute_decisions_kpis.
    repeat split; try apply extends_refl. lia.
  - simpl. repeat split; try apply extends_refl. lia.
Qed.

(** X3.  The history, the event log and the four KPI lists only grow:
    whatever clicks follow, the entries on record stay as they are and in
    their place (an inventory recorded in the history is not touched by
    later batches), and the week never goes back. *)
Theorem logs_only_grow (l : list Action) (s : State) :
  extends (history s) (history (run l s)) /\
  extends (events s) (events (run l s)) /\
  extends (inventory_turnover (kpis s)) (inventory_turnover (kpis (run l s))) /\
  extends (otif (kpis s)) (otif (kpis (run l s))) /\
  extends (costs (kpis s)) (costs (kpis (run l s))) /\
  extends (revenue (kpis s)) (revenue (kpis (run l s))) /\
  week s <= week (run l s).
Proof.
  change (logs_extend s (run l s)).
  revert s. induction l as [| a l IH]; intros s.
  - unfold logs_extend. cbn [run fold_left].
    repeat split; try apply extends_refl. lia.
  - cbn [run fold_left]. fold (run l (perform a s)).
    pose proof (perform_logs_extend a s) as (A1 & A2 & A3 & A4 & A5 & A6 & A7).
    pose proof (IH (perform a s)) as (B1 & B2 & B3 & B4 & B5 & B6 & B7).
    unfold logs_extend.
    repeat split; try (eapply extends_trans; eassumption). lia.
Qed.

(** ** Events and demand *)

Lemma event_effect_cases (s : State) :
  apply_event_effects (nth 0 possible_events (mkEvent "" "")) s = s /\
  apply_event_effects (nth 1 possible_events (mkEvent "" "")) s
  = with_demand s (Z.quot (demand s * 13) 10) /\
  apply_event_effects (nth 2 possible_events (mkEvent "" "")) s
  = with_money s (money s - Z.quot (raw_materials (inventory s) * 25) 100) /\
  apply_event_effects (nth 3 possible_events (mkEvent "" "")) s
  = with_inventory s (set_finished (inventory s)
                        (Z.quot (finished_products (inventory s) * 9) 10)) /\
  apply_event_effects (nth 4 possible_events (mkEvent "" "")) s
  = with_inventory s (set_finished (inventory s)
                        (Z.quot (finished_products (inventory s) * 95) 100)) /\
  forall n, apply_event_effects (nth (5 + n) possible_events (mkEvent "" "")) s = s.
Proof. repeat split. intros n. destruct n; reflexivity. Qed.

Lemma quot_quarter (n : Z) : Z.quot (n * 25) 100 = Z.quot n 4.
Proof. change 100 with (4 * 25). apply Z.quot_mul_cancel_r; lia. Qed.

Lemma quot_nineteen_twentieths (n : Z) : Z.quot (n * 95) 100 = Z.quot (n * 19) 20.
Proof.
  replace (n * 95) with (n * 19 * 5) by lia. change 100 with (20 * 5).
  apply Z.quot_mul_cancel_r; lia.
Qed.

(** X4.  What the random event of a tick does, for each entry of the table:
    Regulatory Change only adds its line to the log, Demand Spike raises
    demand to [demand * 13 / 10], Raw Material Shortage takes a quarter of
    the raw-material quantity off the budget (whatever the budget is),
    Quality Issue and Cold Chain Failure cut the finished products to 9/10
    and 19/20, all truncated; a roll of 0.3 or more changes nothing. *)
Theorem random_event_effects (r : Draws) (s : State) :
  ((3 # 10 <= roll r)%Q -> random_events r s = s) /\
  ((roll r < 3 # 10)%Q ->
   let logged :=
     with_events s (events s ++ [event_line (week s) (chosen_event r)]) in
   (choice r = 0%nat -> random_events r s = logged) /\
   (choice r = 1%nat ->
    random_events r s = with_demand logged (Z.quot (demand s * 13) 10)) /\
   (choice r = 2%nat ->
    random_events r s
    = with_money logged (money s - Z.quot (raw_materials (inventory s)) 4)) /\
   (choice r = 3%nat ->
    random_events r s
    = with_inventory logged
        (set_finished (inventory s)
           (Z.quot (finished_products (inventory s) * 9) 10))) /\
   (choice r = 4%nat ->
    random_events r s
    = with_inventory logged
        (set_finished (inventory s)
           (Z.quot (finished_products (inventory s) * 19) 20)))).
Proof.
  unfold random_events. split; intros Hroll.
  - destruct (Qlt_le_dec (roll r) (3 # 10)) as [Hlt | _]; [| reflexivity].
    exfalso. apply (Qlt_irrefl (roll r)). eapply Qlt_le_trans; eassumption.
  - destruct (Qlt_le_dec (roll r) (3 # 10)) as [_ | Hge].
    2:{ exfalso. apply (Qlt_irrefl (roll r)). eapply Qlt_le_trans; eassumption. }
    unfold chosen_event.
    repeat split; intros Hc; rewrite Hc.
    + reflexivity.
    + reflexivity.
    + rewrite <- (quot_quarter (raw_materials (inventory s))). reflexivity.
    + reflexivity.
    + rewrite <- (quot_nineteen_twentieths (finished_products (inventory s))).
      reflexivity.
Qed.

Lemma random_event_effects_witness :
  (3 # 10 <= roll quiet_draws)%Q /\
  random_events quiet_draws initial_state = initial_state /\
  (roll (event_draws 2) < 3 # 10)%Q /\ choice (event_draws 2) = 2%nat /\
  money (random_events (event_draws 2) initial_state) = 1000000 - 1250 /\
  choice (event_draws 4) = 4%nat /\
  finished_products (inventory (random_events (event_draws 4) initial_state)) = 1900.
Proof.
  assert (Hq : (3 # 10 <= roll quiet_draws)%Q) by (unfold Qle; simpl; lia).
  assert (He : forall i, (roll (event_draws i) < 3 # 10)%Q)
    by (intros i; unfold Qlt; simpl; lia).
  split; [exact Hq |].
  split; [exact (proj1 (random_event_effects quiet_draws initial_state) Hq) |].
  split; [exact (He 2%nat) |]. split; [reflexivity |].
  destruct (proj2 (random_event_effects (event_draws 2) initial_state) (He 2%nat))
    as (_ & _ & H2 & _).
  destruct (proj2 (random_event_effects (event_draws 4) initial_state) (He 4%nat))
    as (_ & _ & _ & _ & H4).
  split; [rewrite (H2 eq_refl); reflexivity |].
  split; [reflexivity | rewrite (H4 eq_refl); reflexivity].
Defined.

(** The demand after the event of a tick: unchanged, or raised by a spike. *)
Lemma random_events_demand (r : Draws) (s : State) :
  demand (random_events r s) = demand s \/
  ((roll r < 3 # 10)%Q /\ choice r = 1%nat /\
   demand (random_events r s) = Z.quot (demand s * 13) 10).
Proof.
  unfold random_events, chosen_event.
  destruct (Qlt_le_dec (roll r) (3 # 10)) as [Hlt | Hge]; [| left; reflexivity].
  destruct (choice r) as [| [| [| [| [| n]]]]] eqn:Hc;
    try (left; reflexivity).
  - right. repeat split. exact Hlt.
  - left. destruct n; reflexivity.
Qed.

Lemma random_events_money (r : Draws) (s : State) :
  money (random_events r s) = money s \/
  ((roll r < 3 # 10)%Q /\ choice r = 2%nat /\
   money (random_events r s) = money s - Z.quot (raw_materials (inventory s)) 4).
Proof.
  unfold random_events, chosen_event.
  destruct (Qlt_le_dec (roll r) (3 # 10)) as [Hlt | Hge]; [| left; reflexivity].
  destruct (choice r) as [| [| [| [| [| n]]]]] eqn:Hc;
    try (left; reflexivity).
  - right. repeat split; [exact Hlt |].
    rewrite <- (quot_quarter (raw_materials (inventory s))). reflexivity.
  - left. destruct n; reflexivity.
Qed.

Lemma random_events_finished (r : Draws) (s : State) :
  0 <= finished_products (inventory s) ->
  0 <= finished_products (inventory (random_events r s))
  <= finished_products (inventory s).
Proof.
  intros Hf. unfold random_events, chosen_event.
  destruct (Qlt_le_dec (roll r) (3 # 10)) as [Hlt | Hge]; [| simpl; lia].
  destruct (choice r) as [| [| [| [| [| n]]]]] eqn:Hc;
    try (simpl; lia).
  - change (0 <= Z.quot (finished_products (inventory s) * 9) 10
            <= finished_products (inventory s)).
    rewrite Z.quot_div_nonneg by lia.
    split; [apply Z.div_pos; lia | apply Z.div_le_upper_bound; lia].
  - change (0 <= Z.quot (finished_products (inventory s) * 95) 100
            <= finished_products (inventory s)).
    rewrite Z.quot_div_nonneg by lia.
    split; [apply Z.div_pos; lia | apply Z.div_le_upper_bound; lia].
  - destruct n; simpl; lia.
Qed.

(** Truncated product of a non-negative amount by a factor in [lo, hi]. *)
Lemma py_int_mulf_between (d : Z) (v : Q) (lo hi : Z) :
  0 <= d -> 0 < lo -> (lo # 10 <= v)%Q -> (v <= hi # 10)%Q ->
  lo * d - 10 < 10 * py_int (mulf d v) /\ 10 * py_int (mulf d v) <= hi * d.
Proof.
  intros Hd Hlo Hl Hh. destruct v as [p q].
  rewrite py_int_mulf. unfold Qle in Hl, Hh. simpl in Hl, Hh.
  assert (Hp : 0 < p) by nia.
  rewrite Z.quot_div_nonneg by nia.
  pose proof (Z.mul_div_le (d * p) (Z.pos q) ltac:(lia)) as Hle.
  pose proof (Z.mul_succ_div_gt (d * p) (Z.pos q) ltac:(lia)) as Hgt.
  set (x := d * p / Z.pos q) in *.
  split; nia.
Qed.

Lemma demand_after_spike (d : Z) :
  0 <= d -> d <= Z.quot (d * 13) 10 /\ 10 * Z.quot (d * 13) 10 <= 13 * d.
Proof.
  intros Hd. rewrite Z.quot_div_nonneg by lia.
  pose proof (Z.mul_div_le (d * 13) 10 ltac:(lia)).
  pose proof (Z.mul_succ_div_gt (d * 13) 10 ltac:(lia)).
  lia.
Qed.

Lemma next_week_demand (r : Draws) (s : State) :
  demand (next_week r s)
  = py_int (mulf (demand (random_events r (progress_time (record_previous_state s))))
              (variation r)).
Proof. reflexivity. Qed.

(** X5.  From a non-negative demand, a tick with draws the generator can
    return moves the demand by the natural variation of at most 10% either
    way (up to truncation), on top of the 30% of a Demand Spike when that
    event fires: [0.9 d - 1 < d' <= 1.43 d], and [d' <= 1.1 d] when no spike
    fires.  The demand stays non-negative. *)
Theorem demand_moves_within_bounds (r : Draws) (s : State) :
  0 <= demand s -> valid_draws r ->
  let d := demand s in
  let d' := demand (next_week r s) in
  0 <= d' /\
  9 * d - 10 < 10 * d' /\
  100 * d' <= 143 * d /\
  (~ ((roll r < 3 # 10)%Q /\ choice r = 1%nat) -> 10 * d' <= 11 * d).
Proof.
  intros Hd (_ & _ & _ & Hlo & Hhi) d d'.
  unfold d'. rewrite next_week_demand.
  pose proof (random_events_demand r (progress_time (record_previous_state s)))
    as Hev.
  change (demand (progress_time (record_previous_state s))) with d in Hev.
  set (d1 := demand (random_events r (progress_time (record_previous_state s)))) in *.
  assert (H1 : d <= d1 /\ 10 * d1 <= 13 * d).
  { destruct Hev as [-> | (_ & _ & ->)]; [lia | apply demand_after_spike, Hd]. }
  destruct (py_int_mulf_between d1 (variation r) 9 11 ltac:(lia) ltac:(lia) Hlo Hhi)
    as (Hgt & Hle).
  repeat split; try lia.
  intros Hno. destruct Hev as [Heq | (Hr & Hc & _)]; [| tauto].
  lia.
Qed.

Lemma demand_moves_within_bounds_witness :
  0 <= demand initial_state /\ valid_draws (event_draws 1) /\
  demand (next_week (event_draws 1) initial_state) = 650 /\
  100 * demand (next_week (event_draws 1) initial_state) <= 143 * 500.
Proof.
  assert (Hd : 0 <= demand initial_state) by (simpl; lia).
  assert (Hv : valid_draws (event_draws 1))
    by (apply valid_draws_b_sound; reflexivity).
  split; [exact Hd | split; [exact Hv | split; [reflexivity |]]].
  exact (proj1 (proj2 (proj2
           (demand_moves_within_bounds (event_draws 1) initial_state Hd Hv)))).
Defined.

Lemma next_week_demand_nonneg (r : Draws) (s : State) :
  0 <= demand s -> valid_draws r -> 0 <= demand (next_week r s).
Proof.
  intros Hd (_ & _ & _ & Hlo & _). rewrite next_week_demand.
  apply py_int_mulf_nonneg.
  - destruct (random_events_demand r (progress_time (record_previous_state s)))
      as [-> | (_ & _ & ->)]; [exact Hd |].
    apply Z.quot_pos; simpl; lia.
  - eapply Qle_trans; [| exact Hlo]. unfold Qle; simpl; lia.
Qed.

Lemma reachable_demand_nonneg (s : State) : reachable s -> 0 <= demand s.
Proof.
  intros H. induction H as [ | r s Hs IH Hr | d s Hs IH | s Hs IH ].
  - simpl. lia.
  - apply next_week_demand_nonneg; assumption.
  - destruct (execute_decisions_log d s) as (_ & _ & _ & Hdem).
    rewrite Hdem. exact IH.
  - exact IH.
Qed.

(** ** Stock and budget through a tick *)

Lemma before_settlement_finished (r : Draws) (s : State) :
  0 <= finished_products (inventory s) ->
  0 <= finished_products (inventory (before_settlement r s))
  <= finished_products (inventory s).
Proof.
  intros Hf. unfold before_settlement, natural_demand_variation.
  cbn [inventory with_demand].
  apply (random_events_finished r (progress_time (record_previous_state s))), Hf.
Qed.

Lemma before_settlement_demand (r : Draws) (s : State) :
  demand (before_settlement r s) = demand (next_week r s).
Proof. reflexivity. Qed.

Lemma before_settlement_money (r : Draws) (s : State) :
  money (before_settlement r s) = money s \/
  ((roll r < 3 # 10)%Q /\ choice r = 2%nat /\
   money (before_settlement r s)
   = money s - Z.quot (raw_materials (inventory s)) 4).
Proof.
  unfold before_settlement, natural_demand_variation. cbn [money with_demand].
  apply (random_events_money r (progress_time (record_previous_state s))).
Qed.

Lemma settlement_money (p : State) :
  money (update_kpis_and_financials p)
  = money p + Z.min (finished_products (inventory p)) (demand p) * 300.
Proof. reflexivity. Qed.

(** X6.  A tick never touches the raw material and the API, whatever is
    drawn.  When the stock of finished products and the demand are not
    negative, it never adds finished products either: the event and the sale
    can only take some away, never more than there are. *)
Theorem tick_only_consumes_stock (r : Draws) (s : State) :
  raw_materials (inventory (next_week r s)) = raw_materials (inventory s) /\
  api (inventory (next_week r s)) = api (inventory s) /\
  (0 <= finished_products (inventory s) -> 0 <= demand s -> valid_draws r ->
   0 <= finished_products (inventory (next_week r s))
   <= finished_products (inventory s)).
Proof.
  destruct (before_settlement_frame r s) as (_ & Hraw & Hapi & _).
  rewrite next_week_unfold.
  split; [| split].
  - rewrite <- Hraw. reflexivity.
  - rewrite <- Hapi. reflexivity.
  - intros Hf Hdem Hr.
    pose proof (before_settlement_finished r s Hf) as Hpre.
    pose proof (next_week_demand_nonneg r s Hdem Hr) as Hd.
    rewrite <- before_settlement_demand in Hd.
    pose proof (stock_before_sale (before_settlement r s)) as Hsale.
    lia.
Qed.

Lemma tick_only_consumes_stock_witness :
  0 <= finished_products (inventory initial_state) /\
  0 <= demand initial_state /\ valid_draws quality_draws /\
  0 <= finished_products (inventory (next_week quality_draws initial_state))
  <= finished_products (inventory initial_state).
Proof.
  assert (Hf : 0 <= finished_products (inventory initial_state)) by (simpl; lia).
  assert (Hd : 0 <= demand initial_state) by (simpl; lia).
  assert (Hv : valid_draws quality_draws)
    by (apply valid_draws_b_sound; reflexivity).
  split; [exact Hf | split; [exact Hd | split; [exact Hv |]]].
  exact (proj2 (proj2 (tick_only_consumes_stock quality_draws initial_state))
           Hf Hd Hv).
Defined.

(** X7.  When the raw material, the finished products and the demand are
    not negative, a tick lowers the budget only when the Raw Material
    Shortage event fires, and then by no more than a quarter of the
    raw-material quantity; every other tick leaves it equal or higher. *)
Theorem tick_budget (r : Draws) (s : State) :
  0 <= raw_materials (inventory s) -> 0 <= finished_products (inventory s) ->
  0 <= demand s -> valid_draws r ->
  money s - Z.quot (raw_materials (inventory s)) 4 <= money (next_week r s) /\
  (~ ((roll r < 3 # 10)%Q /\ choice r = 2%nat) -> money s <= money (next_week r s)).
Proof.
  intros Hraw Hf Hdem Hr.
  pose proof (before_settlement_finished r s Hf) as Hpre.
  pose proof (next_week_demand_nonneg r s Hdem Hr) as Hd.
  rewrite <- before_settlement_demand in Hd.
  rewrite next_week_unfold, settlement_money.
  assert (Hq : 0 <= Z.quot (raw_materials (inventory s)) 4)
    by (apply Z.quot_pos; lia).
  destruct (before_settlement_money r s) as [Hm | (Hroll & Hc & Hm)]; rewrite Hm.
  - split; [lia | intros _; lia].
  - split; [lia | intros Hno; exfalso; apply Hno; split; assumption].
Qed.

Lemma tick_budget_witness :
  0 <= raw_materials (inventory initial_state) /\
  0 <= finished_products (inventory initial_state) /\
  0 <= demand initial_state /\ valid_draws (event_draws 2) /\
  money initial_state - Z.quot (raw_materials (inventory initial_state)) 4
  <= money (next_week (event_draws 2) initial_state).
Proof.
  assert (Hraw : 0 <= raw_materials (inventory initial_state)) by (simpl; lia).
  assert (Hf : 0 <= finished_products (inventory initial_state)) by (simpl; lia).
  assert (Hd : 0 <= demand initial_state) by (simpl; lia).
  assert (Hv : valid_draws (event_draws 2))
    by (apply valid_draws_b_sound; reflexivity).
  split; [exact Hraw | split; [exact Hf | split; [exact Hd | split; [exact Hv |]]]].
  exact (proj1 (tick_budget (event_draws 2) initial_state Hraw Hf Hd Hv)).
Defined.

(** ** KPI samples *)

Lemma turnover_range (sold stock : Z) :
  0 <= sold <= stock ->
  (0 <= inject_Z sold / (inject_Z stock + (1 # 10)))%Q /\
  (inject_Z sold / (inject_Z stock + (1 # 10)) < 1)%Q.
Proof.
  intros H.
  assert (Hpos : (0 < inject_Z stock + (1 # 10))%Q).
  { unfold Qlt, Qplus. simpl. lia. }
  split.
  - apply Qle_shift_div_l; [exact Hpos |].
    rewrite Qmult_0_l. unfold Qle; simpl; lia.
  - apply Qlt_shift_div_r; [exact Hpos |].
    rewrite Qmult_1_l. unfold Qlt, Qplus; simpl. lia.
Qed.

(** X8.  When the three inventory quantities and the demand are not
    negative, the samples a tick records are in range: the turnover is in
    [0, 1), the inventory value is non-negative, and the revenue is 300
    times a non-negative number of units. *)
Theorem kpi_samples_in_range (r : Draws) (s : State) :
  0 <= raw_materials (inventory s) -> 0 <= api (inventory s) ->
  0 <= finished_products (inventory s) -> 0 <= demand s -> valid_draws r ->
  exists (t : Q) (c v sold : Z),
    inventory_turnover (kpis (next_week r s)) = inventory_turnover (kpis s) ++ [t] /\
    costs (kpis (next_week r s)) = costs (kpis s) ++ [c] /\
    revenue (kpis (next_week r s)) = revenue (kpis s) ++ [v] /\
    (0 <= t)%Q /\ (t < 1)%Q /\ 0 <= c /\ 0 <= sold /\ v = sold * 300.
Proof.
  intros H1 H2 H3 Hdem Hr.
  pose proof (before_settlement_nonneg r s (conj H1 (conj H2 H3)))
    as (Hraw & Hapi & Hf).
  pose proof (next_week_demand_nonneg r s Hdem Hr) as Hd.
  rewrite <- before_settlement_demand in Hd.
  assert (Hk : kpis (before_settlement r s) = kpis s)
    by apply before_settlement_frame.
  rewrite next_week_unfold.
  generalize dependent (before_settlement r s). intros p Hraw Hapi Hf Hd Hk.
  unfold update_kpis_and_financials. simpl. rewrite Hk.
  exists (turnover_of p), (total_inventory_value (inventory p)),
    (sold_products p * 300), (sold_products p).
  assert (Ht : (0 <= turnover_of p)%Q /\ (turnover_of p < 1)%Q)
    by (apply turnover_range; unfold sold_products; lia).
  destruct Ht as (Ht0 & Ht1).
  repeat split; try assumption.
  - unfold total_inventory_value. lia.
  - unfold sold_products. lia.
Qed.

Lemma kpi_samples_in_range_witness :
  0 <= raw_materials (inventory initial_state) /\
  0 <= api (inventory initial_state) /\
  0 <= finished_products (inventory initial_state) /\
  0 <= demand initial_state /\ valid_draws quality_draws /\
  exists (t : Q) (c v sold : Z),
    inventory_turnover (kpis (next_week quality_draws initial_state)) = [t] /\
    costs (kpis (next_week quality_draws initial_state)) = [c] /\
    revenue (kpis (next_week quality_draws initial_state)) = [v] /\
    (0 <= t)%Q /\ (t < 1)%Q /\ 0 <= c /\ 0 <= sold /\ v = sold * 300.
Proof.
  assert (H1 : 0 <= raw_materials (inventory initial_state)) by (simpl; lia).
  assert (H2 : 0 <= api (inventory initial_state)) by (simpl; lia).
  assert (H3 : 0 <= finished_products (inventory initial_state)) by (simpl; lia).
  assert (Hd : 0 <= demand initial_state) by (simpl; lia).
  assert (Hv : valid_draws quality_draws)
    by (apply valid_draws_b_sound; reflexivity).
  repeat (split; [assumption |]).
  exact (kpi_samples_in_range quality_draws initial_state H1 H2 H3 Hd Hv).
Defined.

(** ** More on Execute Decisions *)

Lemma conversion_yield (n num : Z) :
  0 <= n -> 0 <= num <= 10 ->
  0 <= py_int (mulf n (num # 10)) <= n.
Proof.
  intros Hn Hnum. rewrite py_int_mulf. rewrite Z.quot_div_nonneg by nia.
  split; [apply Z.div_pos; nia | apply Z.div_le_upper_bound; nia].
Qed.

(** X9.  A batch of non-negative amounts never creates stock and never
    overdraws: the units in stock, all goods together, grow by at most the
    units purchased (conversions only lose material), the budget goes down
    by at most the purchase cost, and a non-negative budget stays
    non-negative. *)
Theorem batch_never_creates_stock (d : Decisions) (s : State) :
  0 <= raw_to_api d -> 0 <= api_to_finished d -> 0 <= raw_materials_to_buy d ->
  let s' := fst (execute_decisions d s) in
  stock_units (inventory s')
  <= stock_units (inventory s) + raw_materials_to_buy d /\
  money s - raw_materials_to_buy d * 10 <= money s' <= money s /\
  (0 <= money s -> 0 <= money s').
Proof.
  intros Hr Ha Hb s'. unfold s', execute_decisions.
  destruct (Z.leb_spec (raw_materials_to_buy d * 10) (money s)) as [Hle | Hgt].
  - pose proof (conversion_yield (raw_to_api d) 8 Hr ltac:(lia)) as H8.
    pose proof (conversion_yield (api_to_finished d) 9 Ha ltac:(lia)) as H9.
    unfold apply_decisions, stock_units. simpl. repeat split; lia.
  - unfold stock_units. simpl. repeat split; lia.
Qed.

Lemma batch_never_creates_stock_witness :
  0 <= raw_to_api default_decisions /\ 0 <= api_to_finished default_decisions /\
  0 <= raw_materials_to_buy default_decisions /\
  stock_units (inventory (fst (execute_decisions default_decisions initial_state)))
  <= 10000 + 100.
Proof.
  assert (Hr : 0 <= raw_to_api default_decisions) by (simpl; lia).
  assert (Ha : 0 <= api_to_finished default_decisions) by (simpl; lia).
  assert (Hb : 0 <= raw_materials_to_buy default_decisions) by (simpl; lia).
  split; [exact Hr | split; [exact Ha | split; [exact Hb |]]].
  exact (proj1 (batch_never_creates_stock default_decisions initial_state Hr Ha Hb)).
Defined.

(** X10.  With a negative budget the handler refuses every batch whose
    purchase amount is not negative, a batch that buys nothing included:
    the conversions cannot be executed until the budget is back at zero or
    above. *)
Theorem negative_budget_blocks_batches (d : Decisions) (s : State) :
  money s < 0 -> 0 <= raw_materials_to_buy d ->
  execute_decisions d s
  = (s, error "Insufficient funds to purchase raw materials! 💸").
Proof.
  intros Hm Hb.
  apply (proj2 (execute_decisions_cases d s)). lia.
Qed.

Lemma negative_budget_blocks_batches_witness :
  reachable (run overdrawn_run initial_state) /\
  money (run overdrawn_run initial_state) < 0 /\
  0 <= raw_materials_to_buy (convert_only 100) /\
  execute_decisions (convert_only 100) (run overdrawn_run initial_state)
  = (run overdrawn_run initial_state,
     error "Insufficient funds to purchase raw materials! 💸").
Proof.
  assert (Hm : money (run overdrawn_run initial_state) < 0)
    by (vm_compute; reflexivity).
  assert (Hb : 0 <= raw_materials_to_buy (convert_only 100)) by (simpl; lia).
  split.
  - apply admissible_reachable; [apply reach_initial | vm_compute; reflexivity].
  - split; [exact Hm | split; [exact Hb |]].
    exact (negative_budget_blocks_batches _ _ Hm Hb).
Defined.



(** ** Reset *)

(** X12.  A click on Reset, with the rerun it triggers, changes nothing but
    the flag stored under ['initialized']: the rerun finds the key present
    and does not enter the initialisation block, so week, budget, inventory,
    demand, event log, KPI lists and history stay as they were; a second
    click changes nothing at all. *)
Theorem reset_keeps_the_session (r : Draws) (d : Decisions) (s : State) :
  let clicked := fst (script_pass only_reset r d (Some s)) in
  let rerun := fst (script_pass no_click r d (Some clicked)) in
  rerun = with_initialized s false /\
  week rerun = week s /\ money rerun = money s /\
  inventory rerun = inventory s /\ demand rerun = demand s /\
  events rerun = events s /\ kpis rerun = kpis s /\
  history rerun = history s /\
  fst (script_pass no_click r d
         (Some (fst (script_pass only_reset r d (Some rerun))))) = rerun.
Proof. repeat split. Qed.

(** ** The page *)

(** X13.  The events panel shows the last five lines of the log, in order,
    or the whole log when it has fewer; it shows the placeholder exactly
    when nothing has been logged. *)
Theorem recent_events_are_the_tail (s : State) :
  (exists older, events s = older ++ recent_events s /\
                 List.length older = (List.length (events s) - 5)%nat) /\
  List.length (recent_events s) = Nat.min 5 (List.length (events s)) /\
  (events s = [] <-> events_panel s = panel_message "No events yet 👍") /\
  (events s <> [] -> events_panel s = panel_data (recent_events s)).
Proof.
  unfold events_panel, recent_events. repeat split.
  - exists (firstn (List.length (events s) - 5) (events s)). split.
    + symmetry. apply firstn_skipn.
    + rewrite length_firstn. lia.
  - rewrite length_skipn. lia.
  - intros ->. reflexivity.
  - destruct (events s); [reflexivity | discriminate].
  - destruct (events s); [congruence | reflexivity].
Qed.

Lemma recent_events_are_the_tail_witness :
  events (run three_weeks initial_state) <> [] /\
  events_panel (run three_weeks initial_state)
  = panel_data
      [ "Week 3: 🔬 Quality Issue - 10% of production batch rejected"%string;
        "Week 4: 📈 Demand Spike - Demand increased by 30%"%string ].
Proof.
  assert (H : events (run three_weeks initial_state) <> [])
    by (vm_compute; discriminate).
  split; [exact H |].
  rewrite (proj2 (proj2 (proj2
             (recent_events_are_the_tail (run three_weeks initial_state)))) H).
  vm_compute. reflexivity.
Defined.

Lemma fold_sum_at_most (l : list Q) (acc : Q) :
  Forall (fun q => (q <= 1)%Q) l ->
  (fold_left Qplus l acc <= acc + inject_Z (Z.of_nat (List.length l)))%Q.
Proof.
  revert acc. induction l as [| q l IH]; intros acc Hl.
  - simpl. rewrite Qplus_0_r. apply Qle_refl.
  - inversion Hl as [| ? ? H1 Hrest]; subst.
    pose proof (IH (acc + q)%Q Hrest) as Hhi.
    cbn [fold_left List.length].
    eapply Qle_trans; [exact Hhi |].
    rewrite Nat2Z.inj_succ, <- Z.add_1_l, inject_Z_plus.
    rewrite Qplus_assoc. apply Qplus_le_l. apply Qplus_le_r. exact H1.
Qed.

Lemma mean_at_most_1 (l : list Q) :
  Forall (fun q => (q <= 1)%Q) l -> l <> [] ->
  exists m, mean l = Some m /\ (m <= 1)%Q.
Proof.
  intros Hl Hne. destruct l as [| q l]; [congruence |].
  eexists. split; [reflexivity |].
  pose proof (fold_sum_at_most (q :: l) 0%Q Hl) as Hhi.
  fold (py_sum (q :: l)) in Hhi. rewrite Qplus_0_l in Hhi.
  assert (Hn : (0 < inject_Z (Z.of_nat (List.length (q :: l))))%Q).
  { unfold Qlt. simpl. lia. }
  apply Qle_shift_div_r; [exact Hn |]. rewrite Qmult_1_l. exact Hhi.
Qed.

(** X14.  In a reachable state the KPI panel never divides by zero: the
    fill-rate list it averages is non-empty whenever the turnover list that
    guards the block is.  Before the first tick it shows the placeholder;
    from then on it shows the metrics, with an average fill rate of at most
    1 and the profit [money - 1000000]. *)
Theorem kpi_panel_is_safe (s : State) :
  reachable s ->
  kpi_panel s <> panel_error /\
  (history s = [] ->
   kpi_panel s
   = panel_message "No KPI data yet. Run the simulation to generate data. ⏳") /\
  (history s <> [] ->
   exists m, kpi_panel s = panel_data m /\
             (avg_otif m <= 1)%Q /\
             profit m = Some (money s - 1000000)).
Proof.
  intros Hs.
  destruct (reachable_sample_counts s Hs) as (Ht & Ho & _ & Hv).
  pose proof (reachable_fill_rates s Hs) as Hfill.
  assert (Hempty : history s = [] ->
            kpi_panel s
            = panel_message "No KPI data yet. Run the simulation to generate data. ⏳").
  { intros Hh. unfold kpi_panel. rewrite Ht, Hh. reflexivity. }
  assert (Hdata : history s <> [] ->
            exists m, kpi_panel s = panel_data m /\
                      (avg_otif m <= 1)%Q /\
                      profit m = Some (money s - 1000000)).
  { intros Hh.
    assert (Hlen : (0 < List.length (history s))%nat)
      by (destruct (history s); [congruence | simpl; lia]).
    assert (Hone : otif (kpis s) <> [])
      by (intros E; rewrite E in Ho; simpl in Ho; lia).
    destruct (mean_at_most_1 _ Hfill Hone) as (m & Hm & H1).
    unfold kpi_panel. rewrite Ht, Hv, Hm.
    destruct (Nat.ltb_spec 0 (List.length (history s))) as [_ | Hbad]; [| lia].
    destruct (inventory_turnover (kpis s)) as [| t l] eqn:Et;
      [simpl in Ht; lia |].
    cbn [mean]. eexists. split; [reflexivity |].
    cbn [avg_otif profit]. split; [assumption | reflexivity]. }
  split; [| split; assumption].
  destruct (history s) as [| h hs] eqn:Eh.
  - rewrite Hempty by reflexivity. discriminate.
  - destruct Hdata as (m & -> & _); [discriminate | discriminate].
Qed.

Lemma kpi_panel_is_safe_witness :
  reachable (run three_weeks initial_state) /\
  history (run three_weeks initial_state) <> [] /\
  exists m, kpi_panel (run three_weeks initial_state) = panel_data m /\
            (avg_otif m <= 1)%Q /\
            profit m = Some (money (run three_weeks initial_state) - 1000000).
Proof.
  assert (H : reachable (run three_weeks initial_state))
    by (apply admissible_reachable; [apply reach_initial | vm_compute; reflexivity]).
  assert (Hh : history (run three_weeks initial_state) <> [])
    by (vm_compute; discriminate).
  split; [exact H | split; [exact Hh |]].
  destruct (proj2 (proj2 (kpi_panel_is_safe _ H)) Hh) as (m & Hm & H1 & Hp).
  exists m. repeat split; assumption.
Defined.

(** X15.  The series prepared for the financial chart never have the length
    of the week axis: in a reachable state the revenue and cost series are
    the KPI lists with a zero in front, one element longer than [weeks], so
    the padding of lines 230-233 never runs; and the chart is prepared as
    soon as the history has two entries. *)
Theorem financial_series_one_longer (s : State) :
  reachable s ->
  revenue_data s = 0 :: revenue (kpis s) /\
  costs_data s = 0 :: costs (kpis s) /\
  List.length (revenue_data s) = S (List.length (weeks s)) /\
  List.length (costs_data s) = S (List.length (weeks s)) /\
  ((1 < List.length (history s))%nat ->
   financial_chart s
   = panel_data {| chart_weeks := weeks s;
                   chart_revenue := 0 :: revenue (kpis s);
                   chart_costs := 0 :: costs (kpis s) |}).
Proof.
  intros Hs.
  destruct (reachable_sample_counts s Hs) as (_ & _ & Hc & Hv).
  assert (Hw : List.length (weeks s) = List.length (history s))
    by (unfold weeks; apply length_map).
  assert (Hrev : revenue_data s = 0 :: revenue (kpis s)).
  { unfold revenue_data, pad_to_weeks. cbn [List.length]. rewrite Hw, Hv.
    destruct (Nat.ltb_spec (S (List.length (history s))) (List.length (history s)));
      [lia | reflexivity]. }
  assert (Hcost : costs_data s = 0 :: costs (kpis s)).
  { unfold costs_data, pad_to_weeks. cbn [List.length]. rewrite Hw, Hc.
    destruct (Nat.ltb_spec (S (List.length (history s))) (List.length (history s)));
      [lia | reflexivity]. }
  split; [exact Hrev | split; [exact Hcost |]].
  rewrite Hrev, Hcost. cbn [List.length]. rewrite Hw, Hv, Hc.
  split; [reflexivity | split; [reflexivity |]].
  intros Hlen. unfold financial_chart. rewrite Hrev, Hcost, Hv.
  destruct (Nat.ltb_spec 1 (List.length (history s))); [| lia].
  destruct (Nat.ltb_spec 0 (List.length (history s))); [reflexivity | lia].
Qed.

Lemma financial_series_one_longer_witness :
  reachable (run three_weeks initial_state) /\
  (1 < List.length (history (run three_weeks initial_state)))%nat /\
  weeks (run three_weeks initial_state) = [1; 2; 3] /\
  financial_chart (run three_weeks initial_state)
  = panel_data {| chart_weeks := [1; 2; 3];
                  chart_revenue := [0; 150000; 150000; 195000];
                  chart_costs := [0; 600000; 479500; 379500] |}.
Proof.
  assert (H : reachable (run three_weeks initial_state))
    by (apply admissible_reachable; [apply reach_initial | vm_compute; reflexivity]).
  assert (Hl : (1 < List.length (history (run three_weeks initial_state)))%nat)
    by (vm_compute; lia).
  split; [exact H | split; [exact Hl | split; [reflexivity |]]].
  rewrite (proj2 (proj2 (proj2 (proj2 (financial_series_one_longer _ H)))) Hl).
  vm_compute. reflexivity.
Defined.

Lemma binary64_products_agree_witness :
  0 <= 2000 <= 5000 /\
  Binary64.int_mul 2000 (Binary64.literal 95 100) = Some 1900.
Proof.
  assert (H : 0 <= 2000 <= 5000) by lia.
  split; [exact H |].
  destruct (binary64_products_agree 2000 H) as (_ & _ & H95 & _).
  rewrite H95. reflexivity.
Defined.
